(** * evgflip: flip detection over a window of three versions

    A shallow embedding of [src/evgflip/find_flips.py].  Python dictionaries
    are finite maps with string keys ([gmap string _]); only lookups and
    dictionary equality are observed by the properties below, and both are
    insensitive to insertion order.  A call that may raise is a function into
    [option], [None] standing for the exception leaving the function. *)

From Stdlib Require Import ZArith Ascii String.
From stdpp Require Import gmap strings list fin_maps option.

Local Open Scope Z_scope.

(** ** Data model *)

(** [evergreen.task.Task], restricted to what the analysis reads.  The class
    belongs to the API client; [is_success] records the answer of the
    [is_success()] call on the snapshot. *)
Module Task.
Record t := mk {
  display_name : string;
  activated : bool;
  status : string;
  is_success : bool;
}.
End Task.

(** [evergreen.build.Build]: [get_tasks] is the task list the API returns. *)
Module Build.
Record t := mk {
  display_name : string;
  build_variant : string;
  get_tasks : list Task.t;
}.
End Build.

(** [evergreen.version.Version]; [create_time] is a timestamp, as an integer. *)
Module Version.
Record t := mk {
  version_id : string;
  revision : string;
  create_time : Z;
  get_builds : list Build.t;
}.
End Version.

(** [FlipList = namedtuple("FlipList", ["revision", "flipped_tasks"])] *)
Module FlipList.
Record t := mk {
  revision : string;
  flipped_tasks : gmap string (list string);
}.
End FlipList.

(** [WorkItem = namedtuple("WorkItem", ["version", "version_prev", "version_next"])] *)
Module WorkItem.
Record t := mk {
  version : Version.t;
  version_prev : Version.t;
  version_next : Version.t;
}.
End WorkItem.

(** ** Python primitives used by the module *)

(** A dictionary comprehension [{k: v for ...}] over the produced pairs, in
    order: a later pair overwrites an earlier one with the same key. *)
Definition dict_comp {V : Type} (kvs : list (string * V)) : gmap string V :=
  foldl (λ d kv, <[kv.1 := kv.2]> d) ∅ kvs.

(** Truth value of an object in a condition ([if v], [not v]). *)
Class Truthy (A : Type) := truthy : A → bool.

(** Sequences, strings, dictionaries and sets are false exactly when their
    length is zero. *)
#[export] Instance list_truthy {A} : Truthy (list A) :=
  λ l, negb (Nat.eqb (length l) 0).
#[export] Instance string_truthy : Truthy string :=
  λ s, negb (Nat.eqb (String.length s) 0).
#[export] Instance dict_truthy `{Countable K} {V} : Truthy (gmap K V) :=
  λ d, negb (Nat.eqb (size d) 0).
#[export] Instance set_truthy `{Countable K} : Truthy (gset K) :=
  λ s, negb (Nat.eqb (size s) 0).

(** [s.startswith(p)] *)
Definition startswith (s p : string) : bool := String.prefix p s.

(** [Version.build_by_variant] of the API client: the build registered for
    the variant name, the lookup failing when the version has none. *)
Definition build_by_variant (v : Version.t) (name : string) : option Build.t :=
  dict_comp ((λ b, (Build.build_variant b, b)) <$> Version.get_builds v) !! name.

(** [boltons.iterutils.windowed_iter(src, 3)]: the consecutive triples of the
    sequence, in order; fewer than three elements give no triple. *)
Fixpoint windowed_iter (src : list Version.t)
    : list (Version.t * Version.t * Version.t) :=
  match src with
  | [] => []
  | a :: rest =>
      match rest with
      | b :: c :: _ => (a, b, c) :: windowed_iter rest
      | _ => []
      end
  end.

(** ** The functions of [find_flips.py] *)

(** [return {k: v for k, v in d.items() if v}] *)
Definition _filter_empty_values `{Countable K} {V} `{Truthy V} (d : gmap K V)
    : gmap K V :=
  filter (λ kv, Is_true (truthy kv.2)) d.

Definition _filter_builds (build : Build.t) : bool :=
  if startswith (Build.display_name build) "!" then true else false.

(** [return {task.display_name: task for task in tasks}] *)
Definition _create_task_map (tasks : list Task.t) : gmap string Task.t :=
  dict_comp ((λ task, (Task.display_name task, task)) <$> tasks).

Definition _is_task_a_flip (task : Task.t) (tasks_prev tasks_next : gmap string Task.t)
    : bool :=
  if Task.activated task && negb (Task.is_success task) then
    match tasks_prev !! Task.display_name task with
    | None => false
    | Some task_prev =>
        if negb (String.eqb (Task.status task_prev) (Task.status task)) then false
        else
          match tasks_next !! Task.display_name task with
          | None => false
          | Some task_next =>
              if String.eqb (Task.status task_next) (Task.status task) then false
              else true
          end
    end
  else false.

Definition _flips_for_build (build : Build.t) (version_prev version_next : Version.t)
    : option (list string) :=
  build_prev ← build_by_variant version_prev (Build.build_variant build);
  build_next ← build_by_variant version_next (Build.build_variant build);
  let tasks := Build.get_tasks build in
  let tasks_prev := _create_task_map (Build.get_tasks build_prev) in
  let tasks_next := _create_task_map (Build.get_tasks build_next) in
  Some (Task.display_name <$>
          filter (λ task, Is_true (_is_task_a_flip task tasks_prev tasks_next)) tasks).

Definition _flips_for_version (work_item : WorkItem.t) : option FlipList.t :=
  let version := WorkItem.version work_item in
  let version_prev := WorkItem.version_prev work_item in
  let version_next := WorkItem.version_next work_item in
  let builds := filter (λ build, Is_true (_filter_builds build)) (Version.get_builds version) in
  flips ← mapM (λ b, l ← _flips_for_build b version_prev version_next;
                     Some (Build.build_variant b, l)) builds;
  Some (FlipList.mk (Version.revision version) (_filter_empty_values (dict_comp flips))).

(** [WorkItem(version, version_prev, version_next)] for a window
    [(version_prev, version, version_next)]. *)
Definition to_work_item (window : Version.t * Version.t * Version.t) : WorkItem.t :=
  let '(version_prev, version, version_next) := window in
  WorkItem.mk version version_prev version_next.

(** The scheduling loop of [find]: one work item per window, until the first
    window whose middle version is older than [look_back] ([break]). *)
Fixpoint schedule (look_back : Z) (windows : list (Version.t * Version.t * Version.t))
    : list WorkItem.t :=
  match windows with
  | [] => []
  | (version_prev, version, version_next) :: rest =>
      if Version.create_time version <? look_back then []
      else WorkItem.mk version version_prev version_next :: schedule look_back rest
  end.

(** [find], on the versions [evg_api.versions_by_project(project)] yields.
    The jobs are independent and their results are collected in submission
    order, so the pool is a map over the scheduled items; an exception in a
    job leaves [find] when its result is awaited. *)
Definition find (look_back : Z) (versions : list Version.t)
    : option (gmap string (gmap string (list string))) :=
  let jobs := schedule look_back (windowed_iter versions) in
  results ← mapM _flips_for_version jobs;
  Some (dict_comp
          ((λ r, (FlipList.revision r, FlipList.flipped_tasks r))
             <$> filter (λ r, Is_true (truthy (FlipList.flipped_tasks r))) results)).

(** A dictionary of the four kinds of value the unit test of
    [_filter_empty_values] stores under its keys. *)
Inductive value :=
  | VDict (d : gmap string string)
  | VStr (s : string)
  | VList (l : list string)
  | VSet (s : gset string).

#[export] Instance value_truthy : Truthy value :=
  λ v, match v with
       | VDict d => truthy d
       | VStr s => truthy s
       | VList l => truthy l
       | VSet s => truthy s
       end.

(** ** Scenarios

    Concrete histories on which the functions are run. *)

Definition failed (name : string) : Task.t := Task.mk name true "failed" false.
Definition passed (name : string) : Task.t := Task.mk name true "passed" true.

(** The versions of the end-to-end scenario: the middle one has revision
    ["abc123"] and creation time [T]; each has one build, of variant
    [variant] and display name [display_name]; task A fails in the first two
    versions and passes in the third, task B fails in the first only. *)
Definition scenario_prev (display_name variant : string) (T : Z) : Version.t :=
  Version.mk "v_prev" "fff000" (T + 1)
    [Build.mk display_name variant [failed "A"; failed "B"]].
Definition scenario_version (display_name variant : string) (T : Z) : Version.t :=
  Version.mk "v" "abc123" T
    [Build.mk display_name variant [failed "A"; passed "B"]].
Definition scenario_next (display_name variant : string) (T : Z) : Version.t :=
  Version.mk "v_next" "000fff" (T - 1)
    [Build.mk display_name variant [passed "A"; passed "B"]].

(** The three-version window, as the API yields it. *)
Definition scenario (display_name variant : string) (T : Z) : list Version.t :=
  [ scenario_prev display_name variant T;
    scenario_version display_name variant T;
    scenario_next display_name variant T ].

(** The work item of that window. *)
Definition scenario_work_item (display_name variant : string) (T : Z) : WorkItem.t :=
  WorkItem.mk (scenario_version display_name variant T)
    (scenario_prev display_name variant T) (scenario_next display_name variant T).

(** The same window, the first version being one without builds. *)
Definition scenario_missing_prev (display_name variant : string) (T : Z)
    : list Version.t :=
  [ Version.mk "v_prev" "fff000" (T + 1) [];
    scenario_version display_name variant T;
    scenario_next display_name variant T ].

(** A version without builds, created at [t]. *)
Definition bare (t : Z) : Version.t := Version.mk "" "" t [].

(** Six versions without builds, the fourth older than the ones around it. *)
Definition history : list Version.t := bare <$> [50; 40; 30; 5; 20; 10].

(** The dictionary of [test_with_values_no_empty_items]. *)
Definition test_dict : gmap string value :=
  dict_comp [ ("key1", VDict ∅); ("key2", VStr "something");
              ("key3", VList []); ("key4", VSet {["another things"]}) ].

(** ** Facts about the primitives *)

Section dict_comp.
Context {V : Type}.
Implicit Types (kvs : list (string * V)) (k : string) (v : V).

Lemma dict_comp_snoc kvs k v :
  dict_comp (kvs ++ [(k, v)]) = <[k := v]> (dict_comp kvs).
Proof. unfold dict_comp. by rewrite foldl_snoc. Qed.

Lemma dict_comp_lookup_Some kvs k v :
  dict_comp kvs !! k = Some v → (k, v) ∈ kvs.
Proof.
  induction kvs as [|[k' v'] kvs IH] using rev_ind.
  - unfold dict_comp; simpl. by rewrite lookup_empty.
  - rewrite dict_comp_snoc, lookup_insert. case_decide as Hk; simpl.
    + intros [= <-]. subst k'. apply elem_of_app. right. by left.
    + intros Hl. apply elem_of_app. left. by apply IH.
Qed.

Lemma dict_comp_lookup_None kvs k :
  dict_comp kvs !! k = None ↔ ∀ v, (k, v) ∉ kvs.
Proof.
  induction kvs as [|[k' v'] kvs IH] using rev_ind.
  - unfold dict_comp; simpl. rewrite lookup_empty. split; [|done].
    intros _ v Hin. by apply elem_of_nil in Hin.
  - rewrite dict_comp_snoc, lookup_insert. case_decide as Hk; simpl.
    + subst k'. split; [done|]. intros Hno. exfalso. apply (Hno v').
      apply elem_of_app. right. by left.
    + rewrite IH. split.
      * intros Hno v [Hin|Hin]%elem_of_app; [by apply (Hno v)|].
        apply list_elem_of_singleton in Hin. congruence.
      * intros Hno v Hin. apply (Hno v), elem_of_app. by left.
Qed.
End dict_comp.

Lemma truthy_list_nonempty {A} (l : list A) : truthy l = true ↔ l ≠ [].
Proof. destruct l; unfold truthy, list_truthy; simpl; split; congruence. Qed.

Lemma truthy_dict_nonempty `{Countable K} {V} (d : gmap K V) :
  truthy d = true ↔ d ≠ ∅.
Proof.
  unfold truthy, dict_truthy. rewrite <- map_size_non_empty_iff.
  destruct (size d); simpl; split; (congruence || lia).
Qed.

Lemma truthy_string_nonempty (s : string) : truthy s = true ↔ s ≠ EmptyString.
Proof. destruct s; unfold truthy, string_truthy; simpl; split; congruence. Qed.

Lemma truthy_set_nonempty `{Countable K} (s : gset K) : truthy s = true ↔ s ≠ ∅.
Proof.
  unfold truthy, set_truthy.
  assert (size s = 0%nat ↔ s = ∅) as Hs.
  { rewrite size_empty_iff. by unfold_leibniz. }
  destruct (size s) eqn:E; simpl.
  - split; [discriminate|]. intros Hne. destruct Hne. by apply Hs.
  - split; [|done]. intros _ Hse. apply Hs in Hse. discriminate.
Qed.

Lemma filter_empty_values_lookup `{Countable K} {V} `{Truthy V} (d : gmap K V) k v :
  _filter_empty_values d !! k = Some v ↔ d !! k = Some v ∧ truthy v = true.
Proof.
  unfold _filter_empty_values. rewrite map_lookup_filter_Some; simpl.
  by rewrite Is_true_true.
Qed.

(** ** The flip predicate *)

Section flip_predicate.
Implicit Types (task task_prev task_next : Task.t).
Implicit Types (tasks_prev tasks_next : gmap string Task.t).

(** The predicate as one boolean formula over the two lookups. *)
Lemma is_task_a_flip_unfold task tasks_prev tasks_next :
  _is_task_a_flip task tasks_prev tasks_next =
    Task.activated task && negb (Task.is_success task)
    && from_option (λ p, String.eqb (Task.status p) (Task.status task)) false
         (tasks_prev !! Task.display_name task)
    && from_option (λ n, negb (String.eqb (Task.status n) (Task.status task))) false
         (tasks_next !! Task.display_name task).
Proof.
  unfold _is_task_a_flip.
  destruct (Task.activated task), (Task.is_success task); simpl; try done.
  destruct (tasks_prev !! _) as [p|]; simpl; [|done].
  destruct (String.eqb (Task.status p) _); simpl; [|done].
  destruct (tasks_next !! _) as [n|]; simpl; [|done].
  by destruct (String.eqb (Task.status n) _).
Qed.
End flip_predicate.

(** C3: an activated, unsuccessful task whose previous-version namesake has
    the same status and whose next-version namesake has a different status
    is a flip. *)
Theorem is_task_a_flip_true
    (task task_prev task_next : Task.t) (tasks_prev tasks_next : gmap string Task.t) :
  Task.activated task = true →
  Task.is_success task = false →
  tasks_prev !! Task.display_name task = Some task_prev →
  Task.status task_prev = Task.status task →
  tasks_next !! Task.display_name task = Some task_next →
  Task.status task_next ≠ Task.status task →
  _is_task_a_flip task tasks_prev tasks_next = true.
Proof.
  intros Hact Hok Hprev Hsame Hnext Hdiff.
  rewrite is_task_a_flip_unfold, Hact, Hok, Hprev, Hnext; simpl.
  apply String.eqb_eq in Hsame. apply String.eqb_neq in Hdiff.
  by rewrite Hsame, Hdiff.
Qed.

(** C4: a task that is not activated, or whose [is_success()] is true, is
    not a flip, whatever its status and whatever the two task maps hold. *)
Theorem is_task_a_flip_inactive_or_success
    (task : Task.t) (tasks_prev tasks_next : gmap string Task.t) :
  Task.activated task = false ∨ Task.is_success task = true →
  _is_task_a_flip task tasks_prev tasks_next = false.
Proof.
  intros [H|H]; unfold _is_task_a_flip; rewrite H; [done|].
  by rewrite andb_false_r.
Qed.

(** C5: for an activated, unsuccessful task, a previous task map without an
    entry of its display name, or with one of a different status, makes the
    predicate false for every next task map. *)
Theorem is_task_a_flip_no_equal_prev
    (task : Task.t) (tasks_prev tasks_next : gmap string Task.t) :
  Task.activated task = true →
  Task.is_success task = false →
  tasks_prev !! Task.display_name task = None
  ∨ (∃ task_prev, tasks_prev !! Task.display_name task = Some task_prev
                  ∧ Task.status task_prev ≠ Task.status task) →
  _is_task_a_flip task tasks_prev tasks_next = false.
Proof.
  intros Hact Hok Hprev. rewrite is_task_a_flip_unfold, Hact, Hok; simpl.
  destruct Hprev as [->|(p & -> & Hdiff)]; simpl; [done|].
  apply String.eqb_neq in Hdiff. by rewrite Hdiff.
Qed.

(** C6: for an activated, unsuccessful task whose previous-version namesake
    has the same status, a next task map without an entry of its display
    name, or with one of the same status, makes the predicate false. *)
Theorem is_task_a_flip_no_changed_next
    (task task_prev : Task.t) (tasks_prev tasks_next : gmap string Task.t) :
  Task.activated task = true →
  Task.is_success task = false →
  tasks_prev !! Task.display_name task = Some task_prev →
  Task.status task_prev = Task.status task →
  tasks_next !! Task.display_name task = None
  ∨ (∃ task_next, tasks_next !! Task.display_name task = Some task_next
                  ∧ Task.status task_next = Task.status task) →
  _is_task_a_flip task tasks_prev tasks_next = false.
Proof.
  intros Hact Hok Hprev Hsame Hnext.
  rewrite is_task_a_flip_unfold, Hact, Hok, Hprev; simpl.
  destruct Hnext as [->|(n & -> & Heq)]; simpl; [by rewrite andb_false_r|].
  apply String.eqb_eq in Heq. rewrite Heq. by rewrite andb_false_r.
Qed.

Lemma is_task_a_flip_true_witness :
  _is_task_a_flip (failed "A") {[ "A" := failed "A" ]} {[ "A" := passed "A" ]} = true.
Proof.
  apply (is_task_a_flip_true (failed "A") (failed "A") (passed "A"));
    [reflexivity | reflexivity | reflexivity | reflexivity | reflexivity | discriminate].
Defined.

Lemma is_task_a_flip_inactive_or_success_witness :
  _is_task_a_flip (passed "B") {[ "B" := passed "B" ]} {[ "B" := failed "B" ]} = false.
Proof.
  apply (is_task_a_flip_inactive_or_success (passed "B")). right. reflexivity.
Defined.

Lemma is_task_a_flip_no_equal_prev_witness :
  _is_task_a_flip (failed "A") {[ "A" := passed "A" ]} {[ "A" := passed "A" ]} = false.
Proof.
  apply (is_task_a_flip_no_equal_prev (failed "A")); [reflexivity | reflexivity |].
  right. exists (passed "A"). split; [reflexivity | discriminate].
Defined.

Lemma is_task_a_flip_no_changed_next_witness :
  _is_task_a_flip (failed "A") {[ "A" := failed "A" ]} ∅ = false.
Proof.
  apply (is_task_a_flip_no_changed_next (failed "A") (failed "A"));
    [reflexivity | reflexivity | reflexivity | reflexivity |].
  left. reflexivity.
Defined.

(** ** Filtering of empty values *)

(** [test_with_values_no_empty_items]: the keys holding the empty dictionary
    and the empty list go, the string and the set stay. *)
Example test_with_values_no_empty_items :
  dom (_filter_empty_values test_dict) = {[ "key2"; "key4" ]}.
Proof. vm_compute. reflexivity. Qed.

(** C9: the filtered dictionary has exactly the keys of [d] whose value is
    truthy, each with the value it has in [d]; the empty dictionary and the
    empty sequence are falsy, non-empty strings, sequences and sets truthy. *)
Theorem filter_empty_values_spec :
  (∀ (K : Type) (E : EqDecision K) (C : Countable K)
     (V : Type) (T : Truthy V) (d : gmap K V),
      (∀ k, k ∈ dom (_filter_empty_values d) ↔ ∃ v, d !! k = Some v ∧ truthy v = true)
      ∧ (∀ k, k ∈ dom (_filter_empty_values d) → _filter_empty_values d !! k = d !! k))
  ∧ (∀ (K : Type) (E : EqDecision K) (C : Countable K) (V : Type),
      truthy (∅ : gmap K V) = false)
  ∧ (∀ A : Type, truthy ([] : list A) = false)
  ∧ (∀ s : string, s ≠ EmptyString → truthy s = true)
  ∧ (∀ (A : Type) (l : list A), l ≠ [] → truthy l = true)
  ∧ (∀ (K : Type) (E : EqDecision K) (C : Countable K) (s : gset K),
      s ≠ ∅ → truthy s = true).
Proof.
  split; [|split; [|split; [|split; [|split]]]].
  - intros K E C V T d. split; intros k.
    + rewrite elem_of_dom. unfold is_Some.
      by setoid_rewrite filter_empty_values_lookup.
    + intros [v Hv]%elem_of_dom. rewrite Hv.
      apply filter_empty_values_lookup in Hv. symmetry. apply Hv.
  - intros K E C V. unfold truthy, dict_truthy. by rewrite map_size_empty.
  - done.
  - intros s. apply truthy_string_nonempty.
  - intros A l. apply truthy_list_nonempty.
  - intros K E C s. apply truthy_set_nonempty.
Qed.

Lemma filter_empty_values_spec_witness :
  _filter_empty_values test_dict !! "key4" = test_dict !! "key4"
  ∧ truthy (VStr "something") = true.
Proof.
  destruct filter_empty_values_spec as (Hdict & _ & _ & Hstr & _).
  destruct (Hdict string _ _ value _ test_dict) as [Hkeys Hvals]. split.
  - apply Hvals, Hkeys. exists (VSet {[ "another things" ]}).
    split; vm_compute; reflexivity.
  - apply (Hstr "something"). discriminate.
Defined.

(** ** The scheduling loop *)

Lemma schedule_all_older (look_back : Z) (versions : list Version.t) :
  (∀ v, v ∈ versions → Version.create_time v < look_back) →
  schedule look_back (windowed_iter versions) = [].
Proof.
  intros Hold. destruct versions as [|a [|b [|c rest]]]; try reflexivity.
  cbn [windowed_iter schedule].
  assert (Version.create_time b < look_back) as Hb.
  { apply Hold. right. left. }
  apply Z.ltb_lt in Hb. by rewrite Hb.
Qed.

Lemma schedule_until_break (look_back : Z) (i : nat) :
  ∀ (versions : list Version.t) (v : Version.t),
    versions !! S i = Some v →
    is_Some (versions !! S (S i)) →
    Version.create_time v < look_back →
    (∀ j u, (j < i)%nat → versions !! S j = Some u → look_back ≤ Version.create_time u) →
    ∀ later,
      schedule look_back (windowed_iter (take (3 + i) versions ++ later))
      = to_work_item <$> take i (windowed_iter versions).
Proof.
  induction i as [|i IH]; intros versions v Hv [c Hc] Hlt Hearlier later.
  - destruct versions as [|a [|b [|c' rest]]]; simplify_eq/=.
    apply Z.ltb_lt in Hlt. by rewrite Hlt.
  - destruct versions as [|a [|b [|c' rest]]]; simplify_eq/=.
    assert (look_back ≤ Version.create_time b) as Hb.
    { apply (Hearlier 0%nat); [lia | reflexivity]. }
    apply Z.ltb_ge in Hb. rewrite Hb. f_equal.
    apply (IH (b :: c' :: rest) v Hv (ex_intro _ c Hc) Hlt).
    intros j u Hj Hu. apply (Hearlier (S j)); [lia | exact Hu].
Qed.

(** C7: the loop stops at the first window whose middle version is older
    than [look_back].  When that is window [i] (the versions at positions
    [i], [i+1], [i+2]), the scheduled work items are the [i] windows before
    it, whatever follows the [i+3] versions read so far; and when every
    version is older than [look_back], nothing is scheduled and [find]
    returns the empty dictionary. *)
Theorem find_stops_at_look_back (look_back : Z) (versions : list Version.t) :
  (∀ (i : nat) (v : Version.t),
      versions !! S i = Some v →
      is_Some (versions !! S (S i)) →
      Version.create_time v < look_back →
      (∀ j u, (j < i)%nat → versions !! S j = Some u →
              look_back ≤ Version.create_time u) →
      ∀ later,
        schedule look_back (windowed_iter (take (3 + i) versions ++ later))
        = to_work_item <$> take i (windowed_iter versions))
  ∧ ((∀ v, v ∈ versions → Version.create_time v < look_back) →
     schedule look_back (windowed_iter versions) = []
     ∧ find look_back versions = Some ∅).
Proof.
  split.
  - intros i. apply schedule_until_break.
  - intros Hold. split; [by apply schedule_all_older|].
    unfold find. by rewrite schedule_all_older.
Qed.

Lemma find_stops_at_look_back_witness :
  schedule 25 (windowed_iter (take 5 history ++ [bare 100]))
  = to_work_item <$> take 2 (windowed_iter history)
  ∧ find 60 history = Some ∅.
Proof.
  split.
  - apply (proj1 (find_stops_at_look_back 25 history) 2%nat (bare 5));
      [reflexivity | eexists; reflexivity | reflexivity |].
    intros [|[|j]] u Hj Hu; [| |lia]; injection Hu as <-; vm_compute; discriminate.
  - apply (proj2 (find_stops_at_look_back 60 history)).
    intros v Hv. unfold history in Hv. simpl in Hv.
    repeat (apply elem_of_cons in Hv as [->|Hv]); try reflexivity.
    by apply elem_of_nil in Hv.
Defined.

(** ** Per-version analysis *)

Lemma mapM_Some_elem_of {A B} (f : A → option B) (l : list A) (k : list B) :
  mapM f l = Some k → ∀ y, y ∈ k ↔ ∃ x, x ∈ l ∧ f x = Some y.
Proof.
  intros Hl%mapM_Some_1. induction Hl as [|x y l k Hxy _ IH]; intros z.
  - split; [by intros ?%elem_of_nil | by intros (? & ?%elem_of_nil & _)].
  - rewrite elem_of_cons, IH. split.
    + intros [->|(x' & Hx' & Hz)]; [exists x | exists x']; split; auto; by constructor.
    + intros (x' & [->|Hx']%elem_of_cons & Hz); [left; congruence | right; eauto].
Qed.

Lemma build_by_variant_None (v : Version.t) (name : string) :
  build_by_variant v name = None
  ↔ ∀ b, b ∈ Version.get_builds v → Build.build_variant b ≠ name.
Proof.
  unfold build_by_variant. rewrite dict_comp_lookup_None. split.
  - intros Hno b Hb Hname. apply (Hno b), list_elem_of_fmap.
    exists b. by rewrite Hname.
  - intros Hno b' (b & [= -> ->] & Hb)%list_elem_of_fmap. by apply (Hno b).
Qed.

(** The entries of the dictionary a version is reported with: each comes from
    a build that passed [_filter_builds], with the tasks found for it, and
    the task list is not empty. *)
Lemma flips_for_version_entry (work_item : WorkItem.t) (fl : FlipList.t)
    (variant : string) (tasks : list string) :
  _flips_for_version work_item = Some fl →
  FlipList.flipped_tasks fl !! variant = Some tasks →
  tasks ≠ []
  ∧ ∃ build, build ∈ Version.get_builds (WorkItem.version work_item)
      ∧ _filter_builds build = true
      ∧ Build.build_variant build = variant
      ∧ _flips_for_build build (WorkItem.version_prev work_item)
          (WorkItem.version_next work_item) = Some tasks.
Proof.
  unfold _flips_for_version. intros Hfl Hentry.
  destruct (mapM _ _) as [flips|] eqn:Hflips; simplify_eq/=.
  apply filter_empty_values_lookup in Hentry as [Hentry Hne].
  split; [by apply truthy_list_nonempty|].
  apply dict_comp_lookup_Some in Hentry.
  apply (mapM_Some_elem_of _ _ _ Hflips) in Hentry as (build & Hin & Hb).
  apply list_elem_of_filter in Hin as [Hkeep Hin].
  destruct (_flips_for_build build _ _) as [l|] eqn:Hl; simplify_eq/=.
  exists build. by rewrite (Is_true_true_1 _ Hkeep).
Qed.

(** C8: no variant of a [FlipList] maps to an empty task list, and no
    revision of the dictionary [find] returns maps to an empty dictionary. *)
Theorem output_has_no_empty_entries :
  (∀ (work_item : WorkItem.t) (fl : FlipList.t),
      _flips_for_version work_item = Some fl →
      ∀ variant tasks, FlipList.flipped_tasks fl !! variant = Some tasks → tasks ≠ [])
  ∧ (∀ (look_back : Z) (versions : list Version.t) result,
      find look_back versions = Some result →
      ∀ revision flipped, result !! revision = Some flipped → flipped ≠ ∅).
Proof.
  split.
  - intros work_item fl Hfl variant tasks Hentry.
    by destruct (flips_for_version_entry _ _ _ _ Hfl Hentry).
  - unfold find. intros look_back versions result Hfind revision flipped Hentry.
    destruct (mapM _ _) as [results|]; simplify_eq/=.
    apply dict_comp_lookup_Some, list_elem_of_fmap in Hentry as (r & [= -> ->] & Hr).
    apply list_elem_of_filter in Hr as [Hr _].
    by apply truthy_dict_nonempty, Is_true_true.
Qed.

Lemma output_has_no_empty_entries_witness :
  ["A"] ≠ ([] : list string)
  ∧ ({[ "linux" := ["A"] ]} : gmap string (list string)) ≠ ∅.
Proof.
  destruct output_has_no_empty_entries as [Hlist Hdict]. split.
  - apply (Hlist (scenario_work_item "!linux" "linux" 10)
             (FlipList.mk "abc123" {[ "linux" := ["A"] ]})) with "linux";
      vm_compute; reflexivity.
  - apply (Hdict 0 (scenario "!linux" "linux" 10)
             {[ "abc123" := {[ "linux" := ["A"] ]} ]}) with "abc123";
      vm_compute; reflexivity.
Defined.

Lemma dict_comp_lookup_unique {V} (kvs : list (string * V)) (k : string) (v : V) :
  (k, v) ∈ kvs → (∀ v', (k, v') ∈ kvs → v' = v) → dict_comp kvs !! k = Some v.
Proof.
  intros Hin Huniq. destruct (dict_comp kvs !! k) as [v'|] eqn:Hk.
  - f_equal. by apply Huniq, dict_comp_lookup_Some.
  - exfalso. by apply (proj1 (dict_comp_lookup_None kvs k) Hk v).
Qed.

Lemma filter_builds_bang (build : Build.t) :
  _filter_builds build = true
  ↔ ∃ rest, Build.display_name build = String "!"%char rest.
Proof.
  unfold _filter_builds, startswith.
  destruct (Build.display_name build) as [|c rest]; cbn -[Ascii.ascii_dec].
  - split; [done | by intros [? ?]].
  - destruct (Ascii.ascii_dec "!"%char c) as [<-|Hc].
    + split; [by exists rest | by destruct rest].
    + split; [done | intros [? Heq]; congruence].
Qed.

(** C1, as the code has it: [_filter_builds] answers true exactly for the
    builds whose display name starts with ['!'], and those are the builds a
    version is analysed on.  Every entry reported for a version comes from
    such a build, and such a build, when it is the only one of its variant
    among them and has flipped tasks, is reported with them. *)
Theorem builds_analysed_iff_bang :
  (∀ build : Build.t,
      _filter_builds build = true
      ↔ ∃ rest, Build.display_name build = String "!"%char rest)
  ∧ (∀ (work_item : WorkItem.t) (fl : FlipList.t) variant tasks,
      _flips_for_version work_item = Some fl →
      FlipList.flipped_tasks fl !! variant = Some tasks →
      ∃ build rest,
        build ∈ Version.get_builds (WorkItem.version work_item)
        ∧ Build.display_name build = String "!"%char rest
        ∧ Build.build_variant build = variant
        ∧ _flips_for_build build (WorkItem.version_prev work_item)
            (WorkItem.version_next work_item) = Some tasks)
  ∧ (∀ (work_item : WorkItem.t) (fl : FlipList.t) (build : Build.t) rest tasks,
      _flips_for_version work_item = Some fl →
      build ∈ Version.get_builds (WorkItem.version work_item) →
      Build.display_name build = String "!"%char rest →
      (∀ b, b ∈ Version.get_builds (WorkItem.version work_item) →
            _filter_builds b = true →
            Build.build_variant b = Build.build_variant build → b = build) →
      _flips_for_build build (WorkItem.version_prev work_item)
        (WorkItem.version_next work_item) = Some tasks →
      tasks ≠ [] →
      FlipList.flipped_tasks fl !! Build.build_variant build = Some tasks).
Proof.
  split; [exact filter_builds_bang | split].
  - intros work_item fl variant tasks Hfl Hentry.
    destruct (flips_for_version_entry _ _ _ _ Hfl Hentry)
      as (_ & build & Hin & [rest Hbang]%filter_builds_bang & Hvar & Htasks).
    by exists build, rest.
  - intros work_item fl build rest tasks Hfl Hin Hbang Huniq Htasks Hne.
    unfold _flips_for_version in Hfl.
    destruct (mapM _ _) as [flips|] eqn:Hflips; simplify_eq/=.
    apply filter_empty_values_lookup. split; [|by apply truthy_list_nonempty].
    pose proof (mapM_Some_elem_of _ _ _ Hflips) as Hel.
    assert (_filter_builds build = true) as Hkeep.
    { apply filter_builds_bang. by exists rest. }
    apply dict_comp_lookup_unique.
    + apply Hel. exists build. split.
      * apply list_elem_of_filter. split; [by apply Is_true_true|done].
      * by rewrite Htasks.
    + intros tasks' (b & [Hb Hbin]%list_elem_of_filter & Hfb)%Hel.
      destruct (_flips_for_build b _ _) as [l|] eqn:Hl; simplify_eq/=.
      apply Is_true_true in Hb.
      assert (b = build) as -> by (apply Huniq; auto). congruence.
Qed.

Lemma builds_analysed_iff_bang_witness :
  _filter_builds (Build.mk "!windows-debug" "windows-debug" []) = true
  ∧ FlipList.flipped_tasks (FlipList.mk "abc123" {[ "windows-debug" := ["A"] ]})
      !! "windows-debug" = Some ["A"].
Proof.
  destruct builds_analysed_iff_bang as (Hbang & _ & Hreported). split.
  - apply Hbang. exists "windows-debug". reflexivity.
  - apply (Hreported (scenario_work_item "!windows-debug" "windows-debug" 10)
             (FlipList.mk "abc123" {[ "windows-debug" := ["A"] ]})
             (Build.mk "!windows-debug" "windows-debug" [failed "A"; passed "B"])
             "windows-debug" ["A"]).
    + vm_compute. reflexivity.
    + left.
    + reflexivity.
    + intros b Hb _ _. apply list_elem_of_singleton in Hb. exact Hb.
    + vm_compute. reflexivity.
    + discriminate.
Defined.

(** The claim of C1 fails as written: the build displayed as
    ["!windows-debug"] is analysed and its flipped task is reported, and the
    same build displayed as ["windows-debug"] is not analysed at all. *)
Lemma bang_build_is_analysed :
  _filter_builds (Build.mk "!windows-debug" "windows-debug" [failed "A"; passed "B"])
  = true
  ∧ find 0 (scenario "!windows-debug" "windows-debug" 10)
    = Some {[ "abc123" := {[ "windows-debug" := ["A"] ]} ]}
  ∧ _filter_builds (Build.mk "windows-debug" "windows-debug" [failed "A"; passed "B"])
    = false
  ∧ find 0 (scenario "windows-debug" "windows-debug" 10) = Some ∅.
Proof. repeat split; vm_compute; reflexivity. Qed.

(** ** End to end *)

(** C2, as the code has it: on the three-version window of the scenario,
    with the build of variant ["linux"] displayed under a name starting with
    ['!'] and [look_back] not after the middle version's creation time,
    [find] returns [{"abc123": {"linux": ["A"]}}]. *)
Theorem find_scenario (display_name : string) (T look_back : Z) :
  look_back ≤ T →
  startswith display_name "!" = true →
  find look_back (scenario display_name "linux" T)
  = Some {[ "abc123" := {[ "linux" := ["A"] ]} ]}.
Proof.
  intros Htime Hbang. unfold find, scenario.
  cbn [windowed_iter schedule scenario_version Version.create_time].
  apply Z.ltb_ge in Htime. rewrite Htime.
  cbn [mapM]. unfold _flips_for_version.
  cbn [WorkItem.version WorkItem.version_prev WorkItem.version_next
       scenario_version Version.get_builds Version.revision].
  rewrite filter_cons_True, filter_nil.
  2:{ unfold _filter_builds. cbn [Build.display_name]. by rewrite Hbang. }
  vm_compute. reflexivity.
Qed.

Lemma find_scenario_witness :
  find 5 (scenario "!linux" "linux" 10) = Some {[ "abc123" := {[ "linux" := ["A"] ]} ]}.
Proof. apply find_scenario; [lia | reflexivity]. Defined.

(** The claim of C2 fails as written: with the build displayed as ["linux"]
    the same window yields the empty dictionary. *)
Lemma find_scenario_plain_name : find 5 (scenario "linux" "linux" 10) = Some ∅.
Proof. vm_compute. reflexivity. Qed.

(** ** A missing build *)

(** C10: when the previous or the next version has no build of the current
    build's variant, [_flips_for_build] does not return a list but fails;
    and when this happens for a build that passes [_filter_builds] in a
    scheduled work item, [find] fails as a whole. *)
Theorem missing_build_aborts_find :
  (∀ (build : Build.t) (version_prev version_next : Version.t),
      (∀ b, b ∈ Version.get_builds version_prev →
            Build.build_variant b ≠ Build.build_variant build)
      ∨ (∀ b, b ∈ Version.get_builds version_next →
              Build.build_variant b ≠ Build.build_variant build) →
      _flips_for_build build version_prev version_next = None)
  ∧ (∀ (look_back : Z) (versions : list Version.t)
       (work_item : WorkItem.t) (build : Build.t),
      work_item ∈ schedule look_back (windowed_iter versions) →
      build ∈ Version.get_builds (WorkItem.version work_item) →
      _filter_builds build = true →
      (∀ b, b ∈ Version.get_builds (WorkItem.version_prev work_item) →
            Build.build_variant b ≠ Build.build_variant build)
      ∨ (∀ b, b ∈ Version.get_builds (WorkItem.version_next work_item) →
              Build.build_variant b ≠ Build.build_variant build) →
      find look_back versions = None).
Proof.
  assert (∀ build version_prev version_next,
            (∀ b, b ∈ Version.get_builds version_prev →
                  Build.build_variant b ≠ Build.build_variant build)
            ∨ (∀ b, b ∈ Version.get_builds version_next →
                    Build.build_variant b ≠ Build.build_variant build) →
            _flips_for_build build version_prev version_next = None) as Hbuild.
  { intros build version_prev version_next Hmissing. unfold _flips_for_build.
    destruct Hmissing as [Hno|Hno]; apply build_by_variant_None in Hno.
    - by rewrite Hno.
    - rewrite Hno. by destruct (build_by_variant version_prev _). }
  split; [exact Hbuild|].
  intros look_back versions work_item build Hitem Hin Hkeep Hmissing.
  unfold find. apply bind_None. left.
  apply mapM_None_2, Exists_exists. exists work_item.
  split; [by apply list_elem_of_In|].
  unfold _flips_for_version. apply bind_None. left.
  apply mapM_None_2, Exists_exists. exists build. split.
  - apply list_elem_of_In, list_elem_of_filter.
    split; [by apply Is_true_true | done].
  - by rewrite (Hbuild _ _ _ Hmissing).
Qed.

Lemma missing_build_aborts_find_witness :
  find 0 (scenario_missing_prev "!linux" "linux" 10) = None.
Proof.
  apply (proj2 missing_build_aborts_find 0 (scenario_missing_prev "!linux" "linux" 10)
           (WorkItem.mk (scenario_version "!linux" "linux" 10)
              (Version.mk "v_prev" "fff000" (10 + 1) [])
              (scenario_next "!linux" "linux" 10))
           (Build.mk "!linux" "linux" [failed "A"; passed "B"])).
  - left.
  - left.
  - reflexivity.
  - left. intros b Hb. by apply elem_of_nil in Hb.
Defined.

(** ** The task map *)

Lemma dict_comp_lookup_last {V} (l1 l2 : list (string * V)) (k : string) (v : V) :
  (∀ v', (k, v') ∉ l2) → dict_comp (l1 ++ (k, v) :: l2) !! k = Some v.
Proof.
  induction l2 as [|[k' v'] l2 IH] using rev_ind; intros Hlater.
  - by rewrite dict_comp_snoc, lookup_insert_eq.
  - rewrite app_comm_cons, app_assoc, dict_comp_snoc.
    assert (k' ≠ k) as Hk.
    { intros ->. apply (Hlater v'), elem_of_app. right. by left. }
    rewrite lookup_insert_ne by done. apply IH.
    intros v'' Hin. apply (Hlater v''), elem_of_app. by left.
Qed.

Lemma dict_comp_size_NoDup {V} (kvs : list (string * V)) :
  NoDup (kvs.*1) → size (dict_comp kvs) = length kvs.
Proof.
  induction kvs as [|[k v] kvs IH] using rev_ind; intros Hnd.
  - reflexivity.
  - rewrite fmap_app in Hnd. apply list.NoDup_app in Hnd as (Hkvs & Hfresh & _).
    rewrite dict_comp_snoc, length_app, map_size_insert_None.
    + rewrite IH by done. simpl. lia.
    + apply dict_comp_lookup_None. intros v' Hin. apply (Hfresh k).
      * apply list_elem_of_fmap. by exists (k, v').
      * by left.
Qed.

Lemma create_task_map_pairs (tasks : list Task.t) (name : string) (t : Task.t) :
  (name, t) ∈ (λ task, (Task.display_name task, task)) <$> tasks
  ↔ t ∈ tasks ∧ Task.display_name t = name.
Proof.
  rewrite list_elem_of_fmap. split.
  - by intros (t' & [= -> ->] & Hin).
  - intros [Hin <-]. by exists t.
Qed.

(** The task map holds tasks of the list only, each under its own display
    name; a name is absent exactly when no task of the list bears it; the
    empty list gives the empty map. *)
Theorem create_task_map_lookup :
  (∀ (tasks : list Task.t) name t,
      _create_task_map tasks !! name = Some t →
      t ∈ tasks ∧ Task.display_name t = name)
  ∧ (∀ (tasks : list Task.t) name,
      _create_task_map tasks !! name = None
      ↔ ∀ t, t ∈ tasks → Task.display_name t ≠ name)
  ∧ _create_task_map [] = ∅.
Proof.
  split; [|split; [|reflexivity]].
  - intros tasks name t Hl. by apply create_task_map_pairs, dict_comp_lookup_Some.
  - intros tasks name. unfold _create_task_map. rewrite dict_comp_lookup_None. split.
    + intros Hno t Hin Hname. apply (Hno t), create_task_map_pairs. done.
    + intros Hno t [Hin Hname]%create_task_map_pairs. by apply (Hno t).
Qed.

Lemma create_task_map_lookup_witness :
  failed "A" ∈ [failed "A"; passed "B"] ∧ Task.display_name (failed "A") = "A".
Proof.
  apply (proj1 create_task_map_lookup [failed "A"; passed "B"] "A" (failed "A")).
  vm_compute. reflexivity.
Defined.

(** [test_list_of_tasks]: when the display names of the tasks are pairwise
    distinct, the map has as many entries as the list has tasks and every
    task is found under its display name. *)
Theorem create_task_map_unique_names (tasks : list Task.t) :
  NoDup (Task.display_name <$> tasks) →
  size (_create_task_map tasks) = length tasks
  ∧ ∀ t, t ∈ tasks → _create_task_map tasks !! Task.display_name t = Some t.
Proof.
  intros Hnd. unfold _create_task_map. split.
  - rewrite dict_comp_size_NoDup, length_fmap; [done|].
    by rewrite <- list_fmap_compose.
  - intros t Hin. apply list_elem_of_split in Hin as (l1 & l2 & ->).
    rewrite fmap_app, fmap_cons. apply dict_comp_lookup_last.
    intros t' [Hin' Hname]%create_task_map_pairs.
    rewrite fmap_app, fmap_cons in Hnd.
    apply list.NoDup_app in Hnd as (_ & _ & Hnd). apply list.NoDup_cons in Hnd as [Hfresh _].
    apply Hfresh. rewrite <- Hname. by apply list_elem_of_fmap_2.
Qed.

Lemma create_task_map_unique_names_witness :
  size (_create_task_map [failed "A"; passed "B"]) = 2%nat
  ∧ _create_task_map [failed "A"; passed "B"] !! "B" = Some (passed "B").
Proof.
  destruct (create_task_map_unique_names [failed "A"; passed "B"]) as [Hsize Hfound].
  - apply (bool_decide_unpack _). vm_compute. exact I.
  - split; [exact Hsize|]. apply (Hfound (passed "B")). right. left.
Defined.

(** Among tasks of the same display name the last of the list wins: a task
    followed by no task of its name is the one found under that name. *)
Theorem create_task_map_last_wins (before after : list Task.t) (t : Task.t) :
  (∀ u, u ∈ after → Task.display_name u ≠ Task.display_name t) →
  _create_task_map (before ++ t :: after) !! Task.display_name t = Some t.
Proof.
  intros Hafter. unfold _create_task_map. rewrite fmap_app, fmap_cons.
  apply dict_comp_lookup_last.
  intros t' [Hin Hname]%create_task_map_pairs. by apply (Hafter t').
Qed.

Lemma create_task_map_last_wins_witness :
  _create_task_map ([failed "A"] ++ passed "A" :: [passed "B"]) !! "A"
  = Some (passed "A").
Proof.
  apply (create_task_map_last_wins [failed "A"] [passed "B"] (passed "A")).
  intros u Hu. apply list_elem_of_singleton in Hu. subst u. discriminate.
Defined.

(** ** The flip predicate, in full *)

(** A task is a flip exactly when it is activated and unsuccessful, its
    namesake in the previous version has the same status, and its namesake in
    the next version has a different one. *)
Theorem is_task_a_flip_iff
    (task : Task.t) (tasks_prev tasks_next : gmap string Task.t) :
  _is_task_a_flip task tasks_prev tasks_next = true
  ↔ Task.activated task = true
    ∧ Task.is_success task = false
    ∧ (∃ task_prev, tasks_prev !! Task.display_name task = Some task_prev
                    ∧ Task.status task_prev = Task.status task)
    ∧ (∃ task_next, tasks_next !! Task.display_name task = Some task_next
                    ∧ Task.status task_next ≠ Task.status task).
Proof.
  rewrite is_task_a_flip_unfold, !andb_true_iff, negb_true_iff. split.
  - intros [[[Hact Hok] Hprev] Hnext]. repeat split; try done.
    + destruct (tasks_prev !! _) as [p|]; [|done].
      exists p. split; [done|]. by apply String.eqb_eq.
    + destruct (tasks_next !! _) as [n|]; [|done].
      exists n. split; [done|]. by apply String.eqb_neq, negb_true_iff.
  - intros (Hact & Hok & (p & -> & Hsame) & (n & -> & Hdiff)); simpl.
    repeat split; try done.
    + by apply String.eqb_eq.
    + by apply negb_true_iff, String.eqb_neq.
Qed.

Lemma is_task_a_flip_iff_witness :
  Task.activated (failed "A") = true
  ∧ Task.is_success (failed "A") = false
  ∧ (∃ task_prev, ({[ "A" := failed "A" ]} : gmap string Task.t) !! "A" = Some task_prev
                  ∧ Task.status task_prev = "failed")
  ∧ (∃ task_next, ({[ "A" := passed "A" ]} : gmap string Task.t) !! "A" = Some task_next
                  ∧ Task.status task_next ≠ "failed").
Proof.
  apply (proj1 (is_task_a_flip_iff (failed "A") {[ "A" := failed "A" ]}
                  {[ "A" := passed "A" ]})).
  reflexivity.
Defined.

(** ** More on the filter of empty values *)

(** Filtering twice is filtering once, and filtering changes nothing exactly
    when every value of the dictionary is truthy. *)
Theorem filter_empty_values_idempotent `{Countable K} {V} `{Truthy V} (d : gmap K V) :
  _filter_empty_values (_filter_empty_values d) = _filter_empty_values d
  ∧ (_filter_empty_values d = d ↔ ∀ k v, d !! k = Some v → truthy v = true).
Proof.
  split.
  - apply map_eq. intros k. apply option_eq. intros v.
    rewrite !filter_empty_values_lookup. tauto.
  - split.
    + intros Hd k v Hk. rewrite <- Hd in Hk.
      by apply filter_empty_values_lookup in Hk as [_ ?].
    + intros Hall. apply map_eq. intros k. apply option_eq. intros v.
      rewrite filter_empty_values_lookup. split; [tauto|]. eauto.
Qed.

Lemma filter_empty_values_idempotent_witness :
  _filter_empty_values (_filter_empty_values test_dict) = _filter_empty_values test_dict
  ∧ truthy (VStr "something") = true.
Proof.
  split.
  - apply (proj1 (filter_empty_values_idempotent test_dict)).
  - apply (proj1 (proj2 (filter_empty_values_idempotent (_filter_empty_values test_dict)))
             (proj1 (filter_empty_values_idempotent test_dict))
             "key2" (VStr "something")).
    vm_compute. reflexivity.
Defined.

(** Storing a value under a key before filtering: a truthy value is in the
    filtered dictionary under that key, a falsy one removes the key from it;
    the other keys are as without the store. *)
Theorem filter_empty_values_insert `{Countable K} {V} `{Truthy V}
    (d : gmap K V) (k : K) (v : V) :
  _filter_empty_values (<[k := v]> d)
  = if truthy v then <[k := v]> (_filter_empty_values d)
    else delete k (_filter_empty_values d).
Proof.
  unfold _filter_empty_values. destruct (truthy v) eqn:Hv.
  - rewrite map_filter_insert_True; [done|]. by apply Is_true_true_2.
  - rewrite map_filter_insert_False, map_filter_delete; [done|].
    by apply Is_true_false_2.
Qed.

(** ** Per-build analysis *)

(** [_flips_for_build] returns a list exactly when both neighbouring
    versions have a build of the current build's variant. *)
Theorem flips_for_build_is_Some (build : Build.t) (version_prev version_next : Version.t) :
  is_Some (_flips_for_build build version_prev version_next)
  ↔ (∃ b, b ∈ Version.get_builds version_prev
          ∧ Build.build_variant b = Build.build_variant build)
    ∧ (∃ b, b ∈ Version.get_builds version_next
            ∧ Build.build_variant b = Build.build_variant build).
Proof.
  assert (∀ v name, is_Some (build_by_variant v name)
                    ↔ ∃ b, b ∈ Version.get_builds v ∧ Build.build_variant b = name)
    as Hsome.
  { intros v name. split.
    - intros [b Hb]. unfold build_by_variant in Hb.
      apply dict_comp_lookup_Some, list_elem_of_fmap in Hb as (b' & [= -> ->] & Hin).
      by exists b'.
    - intros (b & Hin & Hname). apply not_eq_None_Some. intros Hnone.
      by apply (proj1 (build_by_variant_None v name) Hnone b). }
  rewrite <- !Hsome. unfold _flips_for_build. split.
  - intros [l Hl].
    destruct (build_by_variant version_prev _); [|done].
    destruct (build_by_variant version_next _); [|done]. by split.
  - intros [[bp ->] [bn ->]]. by eexists.
Qed.

Lemma flips_for_build_is_Some_witness :
  is_Some (_flips_for_build (Build.mk "!linux" "linux" [failed "A"; passed "B"])
             (scenario_prev "!linux" "linux" 10) (scenario_next "!linux" "linux" 10)).
Proof.
  apply flips_for_build_is_Some. split; eexists; (split; [left | reflexivity]).
Defined.

(** With both neighbouring builds found, the names returned are exactly the
    display names of the build's tasks that are flips against the task maps
    of those two builds. *)
Theorem flips_for_build_elem_of
    (build build_prev build_next : Build.t) (version_prev version_next : Version.t)
    (flipped : list string) :
  build_by_variant version_prev (Build.build_variant build) = Some build_prev →
  build_by_variant version_next (Build.build_variant build) = Some build_next →
  _flips_for_build build version_prev version_next = Some flipped →
  ∀ name, name ∈ flipped
          ↔ ∃ task, task ∈ Build.get_tasks build
                    ∧ Task.display_name task = name
                    ∧ _is_task_a_flip task
                        (_create_task_map (Build.get_tasks build_prev))
                        (_create_task_map (Build.get_tasks build_next)) = true.
Proof.
  unfold _flips_for_build. intros -> ->; simpl. intros [= <-] name.
  rewrite list_elem_of_fmap. split.
  - intros (task & -> & [Hflip Hin]%list_elem_of_filter).
    exists task. by rewrite (Is_true_true_1 _ Hflip).
  - intros (task & Hin & <- & Hflip). exists task. split; [done|].
    apply list_elem_of_filter. split; [by apply Is_true_true_2 | done].
Qed.

Lemma flips_for_build_elem_of_witness :
  ∃ task, task ∈ [failed "A"; passed "B"]
          ∧ Task.display_name task = "A"
          ∧ _is_task_a_flip task
              (_create_task_map [failed "A"; failed "B"])
              (_create_task_map [passed "A"; passed "B"]) = true.
Proof.
  apply (proj1 (flips_for_build_elem_of
                  (Build.mk "!linux" "linux" [failed "A"; passed "B"])
                  (Build.mk "!linux" "linux" [failed "A"; failed "B"])
                  (Build.mk "!linux" "linux" [passed "A"; passed "B"])
                  (scenario_prev "!linux" "linux" 10) (scenario_next "!linux" "linux" 10)
                  ["A"]
                  ltac:(vm_compute; reflexivity) ltac:(vm_compute; reflexivity)
                  ltac:(vm_compute; reflexivity) "A")).
  left.
Defined.

(** The names come in the order of the build's task list, one per flipped
    task: the result is a subsequence of the tasks' display names. *)
Theorem flips_for_build_sublist
    (build : Build.t) (version_prev version_next : Version.t) (flipped : list string) :
  _flips_for_build build version_prev version_next = Some flipped →
  flipped `sublist_of` (Task.display_name <$> Build.get_tasks build).
Proof.
  unfold _flips_for_build. intros Hfl.
  destruct (build_by_variant version_prev _); [|done].
  destruct (build_by_variant version_next _); simplify_eq/=.
  apply fmap_sublist, sublist_filter.
Qed.

Lemma flips_for_build_sublist_witness : ["A"] `sublist_of` ["A"; "B"].
Proof.
  apply (flips_for_build_sublist
           (Build.mk "!linux" "linux" [failed "A"; passed "B"])
           (scenario_prev "!linux" "linux" 10) (scenario_next "!linux" "linux" 10)).
  vm_compute. reflexivity.
Defined.

(** A build none of whose tasks is both activated and unsuccessful has no
    flipped task, whatever the tasks of the neighbouring builds are. *)
Theorem flips_for_build_green
    (build : Build.t) (version_prev version_next : Version.t) :
  (∀ task, task ∈ Build.get_tasks build →
           Task.activated task = false ∨ Task.is_success task = true) →
  is_Some (_flips_for_build build version_prev version_next) →
  _flips_for_build build version_prev version_next = Some [].
Proof.
  unfold _flips_for_build. intros Hgreen [flipped Hfl].
  destruct (build_by_variant version_prev _) as [bp|]; [|done].
  destruct (build_by_variant version_next _) as [bn|]; [|done]. simpl.
  do 2 f_equal. clear Hfl.
  induction (Build.get_tasks build) as [|task tasks IH]; [done|].
  rewrite filter_cons_False.
  - apply IH. intros t Ht. apply Hgreen. by right.
  - rewrite is_task_a_flip_unfold.
    destruct (Hgreen task) as [-> | ->]; [by left | |];
      rewrite ?andb_false_r; simpl; tauto.
Qed.

Lemma flips_for_build_green_witness :
  _flips_for_build (Build.mk "!linux" "linux" [passed "A"; passed "B"])
    (scenario_prev "!linux" "linux" 10) (scenario_version "!linux" "linux" 10)
  = Some [].
Proof.
  apply flips_for_build_green.
  - intros task Htask. right.
    repeat (apply elem_of_cons in Htask as [->|Htask]); try reflexivity.
    by apply elem_of_nil in Htask.
  - eexists. vm_compute. reflexivity.
Defined.

(** ** Per-version analysis, continued *)

Lemma flips_for_version_nothing_kept (work_item : WorkItem.t) :
  (∀ build, build ∈ Version.get_builds (WorkItem.version work_item) →
            _filter_builds build = false) →
  _flips_for_version work_item
  = Some (FlipList.mk (Version.revision (WorkItem.version work_item)) ∅).
Proof.
  unfold _flips_for_version. intros Hnone.
  assert (filter (λ build, Is_true (_filter_builds build))
            (Version.get_builds (WorkItem.version work_item)) = []) as ->.
  { induction (Version.get_builds (WorkItem.version work_item)) as [|b bs IH]; [done|].
    rewrite filter_cons_False.
    - apply IH. intros build Hin. apply Hnone. by right.
    - apply Is_true_false_2, Hnone. by left. }
  reflexivity.
Qed.

(** A version is analysed without failure exactly when each of its builds
    kept by [_filter_builds] is; in particular a version with no such build
    always yields the empty report under its revision, even when the
    neighbouring versions have no builds at all. *)
Theorem flips_for_version_is_Some (work_item : WorkItem.t) :
  (is_Some (_flips_for_version work_item)
   ↔ ∀ build, build ∈ Version.get_builds (WorkItem.version work_item) →
              _filter_builds build = true →
              is_Some (_flips_for_build build (WorkItem.version_prev work_item)
                         (WorkItem.version_next work_item)))
  ∧ ((∀ build, build ∈ Version.get_builds (WorkItem.version work_item) →
               _filter_builds build = false) →
     _flips_for_version work_item
     = Some (FlipList.mk (Version.revision (WorkItem.version work_item)) ∅)).
Proof.
  split.
  - unfold _flips_for_version. split.
    + intros [fl Hfl] build Hin Hkeep.
      destruct (mapM _ _) as [flips|] eqn:Hflips; [|done].
      assert (is_Some (mapM (λ b, l ← _flips_for_build b
                                      (WorkItem.version_prev work_item)
                                      (WorkItem.version_next work_item);
                                  Some (Build.build_variant b, l))
                         (filter (λ build, Is_true (_filter_builds build))
                            (Version.get_builds (WorkItem.version work_item)))))
        as Hall by (rewrite Hflips; eauto).
      apply mapM_is_Some_1 in Hall. rewrite list.Forall_forall in Hall.
      destruct (Hall build) as [kv Hkv].
      { apply list_elem_of_filter. split; [by apply Is_true_true_2|done]. }
      simpl in Hkv. by destruct (_flips_for_build build _ _).
    + intros Hall.
      destruct (mapM_is_Some_2
                  (λ b, l ← _flips_for_build b
                              (WorkItem.version_prev work_item)
                              (WorkItem.version_next work_item);
                        Some (Build.build_variant b, l))
                  (filter (λ build, Is_true (_filter_builds build))
                     (Version.get_builds (WorkItem.version work_item))))
        as [flips Hflips].
      * apply list.Forall_forall. intros build [Hkeep Hin]%list_elem_of_filter.
        simpl. destruct (Hall build Hin (Is_true_true_1 _ Hkeep)) as [l ->].
        by eexists.
      * rewrite Hflips. by eexists.
  - apply flips_for_version_nothing_kept.
Qed.

Lemma flips_for_version_is_Some_witness :
  _flips_for_version
    (WorkItem.mk (scenario_version "linux" "linux" 10) (bare 11) (bare 9))
  = Some (FlipList.mk "abc123" ∅).
Proof.
  apply (proj2 (flips_for_version_is_Some
                  (WorkItem.mk (scenario_version "linux" "linux" 10) (bare 11) (bare 9)))).
  intros build Hin. apply list_elem_of_singleton in Hin. subst build. reflexivity.
Defined.

(** ** The windows [find] schedules *)

Lemma schedule_elem_of_window (look_back : Z) (versions : list Version.t)
    (work_item : WorkItem.t) :
  work_item ∈ schedule look_back (windowed_iter versions) →
  look_back ≤ Version.create_time (WorkItem.version work_item)
  ∧ ∃ i : nat,
      versions !! i = Some (WorkItem.version_prev work_item)
      ∧ versions !! S i = Some (WorkItem.version work_item)
      ∧ versions !! S (S i) = Some (WorkItem.version_next work_item).
Proof.
  induction versions as [|a rest IH]; [by intros ?%elem_of_nil|].
  destruct rest as [|b [|c rest]]; try by intros ?%elem_of_nil.
  cbn [windowed_iter schedule].
  destruct (Version.create_time b <? look_back) eqn:Hb; [by intros ?%elem_of_nil|].
  apply Z.ltb_ge in Hb. intros [->|Hin]%elem_of_cons.
  - split; [done|]. by exists 0%nat.
  - destruct (IH Hin) as [Htime (i & H1 & H2 & H3)]. split; [done|]. by exists (S i).
Qed.

Lemma schedule_prefix_of_windows (look_back : Z)
    (windows : list (Version.t * Version.t * Version.t)) :
  schedule look_back windows `prefix_of` (to_work_item <$> windows).
Proof.
  induction windows as [|[[a b] c] windows IH]; [done|]. simpl.
  destruct (Version.create_time b <? look_back); [apply prefix_nil|].
  by apply prefix_cons.
Qed.

Lemma windowed_iter_length (versions : list Version.t) :
  length (windowed_iter versions) = (length versions - 2)%nat.
Proof.
  induction versions as [|a rest IH]; [done|].
  destruct rest as [|b [|c rest]]; try done.
  cbn [windowed_iter length] in *. rewrite IH. lia.
Qed.

(** Every scheduled work item is a window of three consecutive versions of
    the input, in the order (previous, current, next) of the input, and its
    current version is not older than [look_back]. *)
Theorem scheduled_items_are_recent_windows (look_back : Z) (versions : list Version.t)
    (work_item : WorkItem.t) :
  work_item ∈ schedule look_back (windowed_iter versions) →
  look_back ≤ Version.create_time (WorkItem.version work_item)
  ∧ ∃ i : nat,
      versions !! i = Some (WorkItem.version_prev work_item)
      ∧ versions !! S i = Some (WorkItem.version work_item)
      ∧ versions !! S (S i) = Some (WorkItem.version_next work_item).
Proof. apply schedule_elem_of_window. Qed.

Lemma scheduled_items_are_recent_windows_witness :
  25 ≤ 30
  ∧ ∃ i : nat,
      history !! i = Some (bare 40)
      ∧ history !! S i = Some (bare 30)
      ∧ history !! S (S i) = Some (bare 5).
Proof.
  apply (scheduled_items_are_recent_windows 25 history
           (WorkItem.mk (bare 30) (bare 40) (bare 5))).
  right. left.
Defined.

(** The scheduled work items are the first windows of the input, and there
    are at most two fewer of them than versions: with fewer than three
    versions nothing is scheduled and [find] returns the empty dictionary. *)
Theorem schedule_is_prefix (look_back : Z) (versions : list Version.t) :
  (schedule look_back (windowed_iter versions)
     `prefix_of` (to_work_item <$> windowed_iter versions))
  ∧ (length (schedule look_back (windowed_iter versions)) ≤ length versions - 2)%nat
  ∧ ((length versions < 3)%nat → find look_back versions = Some ∅).
Proof.
  split; [apply schedule_prefix_of_windows|split].
  - rewrite <- windowed_iter_length, <- (length_fmap to_work_item).
    apply prefix_length, schedule_prefix_of_windows.
  - intros Hshort. by destruct versions as [|a [|b [|c rest]]]; simpl in *; try lia.
Qed.

Lemma schedule_is_prefix_witness : find 0 [bare 50; bare 40] = Some ∅.
Proof. apply (proj2 (proj2 (schedule_is_prefix 0 [bare 50; bare 40]))). simpl. lia. Defined.

(** Raising [look_back] only drops work from the end: the items scheduled
    for a later cutoff are the first of those scheduled for an earlier one. *)
Theorem schedule_look_back_monotone (look_back1 look_back2 : Z)
    (versions : list Version.t) :
  look_back1 ≤ look_back2 →
  schedule look_back2 (windowed_iter versions)
    `prefix_of` schedule look_back1 (windowed_iter versions).
Proof.
  intros Hle. induction (windowed_iter versions) as [|[[a b] c] windows IH]; [done|].
  simpl. destruct (Version.create_time b <? look_back2) eqn:H2; [apply prefix_nil|].
  apply Z.ltb_ge in H2.
  assert ((Version.create_time b <? look_back1) = false) as ->
    by (apply Z.ltb_ge; lia).
  by apply prefix_cons.
Qed.

Lemma schedule_look_back_monotone_witness :
  schedule 35 (windowed_iter history) `prefix_of` schedule 25 (windowed_iter history).
Proof. apply schedule_look_back_monotone. lia. Defined.

(** ** What [find] reports *)

Lemma flips_for_version_revision (work_item : WorkItem.t) (fl : FlipList.t) :
  _flips_for_version work_item = Some fl →
  FlipList.revision fl = Version.revision (WorkItem.version work_item).
Proof.
  unfold _flips_for_version. intros Hfl.
  destruct (mapM _ _); simplify_eq/=. reflexivity.
Qed.

Lemma find_results (look_back : Z) (versions : list Version.t)
    (result : gmap string (gmap string (list string))) :
  find look_back versions = Some result →
  ∃ results,
    mapM _flips_for_version (schedule look_back (windowed_iter versions)) = Some results
    ∧ result = dict_comp
                 ((λ r, (FlipList.revision r, FlipList.flipped_tasks r))
                    <$> filter (λ r, Is_true (truthy (FlipList.flipped_tasks r))) results).
Proof.
  unfold find. intros Hfind.
  destruct (mapM _ _) as [results|]; simplify_eq/=. by exists results.
Qed.

(** [find] fails exactly when the analysis of one of the scheduled work
    items fails; windows past the cutoff cannot make it fail. *)
Theorem find_None_iff (look_back : Z) (versions : list Version.t) :
  find look_back versions = None
  ↔ ∃ work_item, work_item ∈ schedule look_back (windowed_iter versions)
                 ∧ _flips_for_version work_item = None.
Proof.
  unfold find. rewrite bind_None, mapM_None, list.Exists_exists.
  split; [|by left]. intros [?|(results & _ & ?)]; done.
Qed.

Lemma find_None_iff_witness :
  ∃ work_item,
    work_item ∈ schedule 0 (windowed_iter (scenario_missing_prev "!linux" "linux" 10))
    ∧ _flips_for_version work_item = None.
Proof.
  apply (proj1 (find_None_iff 0 (scenario_missing_prev "!linux" "linux" 10))).
  vm_compute. reflexivity.
Defined.

(** Every task name [find] reports is backed by the input: it is the display
    name of an activated, unsuccessful task of a build kept by
    [_filter_builds], in the middle version of three consecutive versions of
    the input; that version bears the reported revision and is not older
    than [look_back]; and the task is a flip against the builds of the same
    variant in the versions before and after it. *)
Theorem find_sound (look_back : Z) (versions : list Version.t)
    (result : gmap string (gmap string (list string)))
    (revision variant name : string)
    (flipped : gmap string (list string)) (tasks : list string) :
  find look_back versions = Some result →
  result !! revision = Some flipped →
  flipped !! variant = Some tasks →
  name ∈ tasks →
  ∃ (i : nat) version_prev version version_next build build_prev build_next task,
    versions !! i = Some version_prev
    ∧ versions !! S i = Some version
    ∧ versions !! S (S i) = Some version_next
    ∧ Version.revision version = revision
    ∧ look_back ≤ Version.create_time version
    ∧ build ∈ Version.get_builds version
    ∧ _filter_builds build = true
    ∧ Build.build_variant build = variant
    ∧ build_by_variant version_prev variant = Some build_prev
    ∧ build_by_variant version_next variant = Some build_next
    ∧ task ∈ Build.get_tasks build
    ∧ Task.display_name task = name
    ∧ Task.activated task = true
    ∧ Task.is_success task = false
    ∧ _is_task_a_flip task (_create_task_map (Build.get_tasks build_prev))
        (_create_task_map (Build.get_tasks build_next)) = true.
Proof.
  intros (results & Hresults & ->)%find_results Hrev Hvariant Hname.
  apply dict_comp_lookup_Some, list_elem_of_fmap in Hrev as (fl & [= -> ->] & Hfl).
  apply list_elem_of_filter in Hfl as [_ Hfl].
  apply (mapM_Some_elem_of _ _ _ Hresults) in Hfl as (work_item & Hitem & Hfl).
  destruct (schedule_elem_of_window _ _ _ Hitem) as (Htime & i & Hp & Hv & Hn).
  destruct (flips_for_version_entry _ _ _ _ Hfl Hvariant)
    as (_ & build & Hbuild & Hkeep & Hvar & Hflips).
  unfold _flips_for_build in Hflips. rewrite Hvar in Hflips.
  destruct (build_by_variant (WorkItem.version_prev work_item) variant)
    as [build_prev|] eqn:Hbp; [|done].
  destruct (build_by_variant (WorkItem.version_next work_item) variant)
    as [build_next|] eqn:Hbn; simplify_eq/=.
  apply list_elem_of_fmap in Hname as (task & -> & [Hflip Htask]%list_elem_of_filter).
  apply Is_true_true_1 in Hflip.
  exists i, (WorkItem.version_prev work_item), (WorkItem.version work_item),
    (WorkItem.version_next work_item), build, build_prev, build_next, task.
  pose proof Hflip as Hparts. rewrite is_task_a_flip_unfold in Hparts.
  apply andb_true_iff in Hparts as [[[Hact Hok]%andb_true_iff _]%andb_true_iff _].
  apply negb_true_iff in Hok.
  repeat split; try done. symmetry. by apply flips_for_version_revision.
Qed.

Lemma find_sound_witness :
  ∃ (i : nat) version_prev version version_next build build_prev build_next task,
    scenario "!linux" "linux" 10 !! i = Some version_prev
    ∧ scenario "!linux" "linux" 10 !! S i = Some version
    ∧ scenario "!linux" "linux" 10 !! S (S i) = Some version_next
    ∧ Version.revision version = "abc123"
    ∧ 5 ≤ Version.create_time version
    ∧ build ∈ Version.get_builds version
    ∧ _filter_builds build = true
    ∧ Build.build_variant build = "linux"
    ∧ build_by_variant version_prev "linux" = Some build_prev
    ∧ build_by_variant version_next "linux" = Some build_next
    ∧ task ∈ Build.get_tasks build
    ∧ Task.display_name task = "A"
    ∧ Task.activated task = true
    ∧ Task.is_success task = false
    ∧ _is_task_a_flip task (_create_task_map (Build.get_tasks build_prev))
        (_create_task_map (Build.get_tasks build_next)) = true.
Proof.
  apply (find_sound 5 (scenario "!linux" "linux" 10)
           {[ "abc123" := {[ "linux" := ["A"] ]} ]} "abc123" "linux" "A"
           {[ "linux" := ["A"] ]} ["A"]).
  - vm_compute. reflexivity.
  - vm_compute. reflexivity.
  - vm_compute. reflexivity.
  - left.
Defined.

(** A scheduled work item whose analysis finds flips is reported under its
    revision, with the dictionary found for it, unless a later scheduled
    item bears the same revision. *)
Theorem find_reports_flipped_version (look_back : Z) (versions : list Version.t)
    (before after : list WorkItem.t) (work_item : WorkItem.t) (fl : FlipList.t)
    (result : gmap string (gmap string (list string))) :
  schedule look_back (windowed_iter versions) = before ++ work_item :: after →
  (∀ later, later ∈ after →
            Version.revision (WorkItem.version later)
            ≠ Version.revision (WorkItem.version work_item)) →
  _flips_for_version work_item = Some fl →
  FlipList.flipped_tasks fl ≠ ∅ →
  find look_back versions = Some result →
  result !! Version.revision (WorkItem.version work_item)
  = Some (FlipList.flipped_tasks fl).
Proof.
  intros Hsched Hlater Hfl Hne (results & Hresults & ->)%find_results.
  rewrite Hsched in Hresults. apply mapM_Some_1 in Hresults.
  apply Forall2_app_inv_l in Hresults as (rs1 & rs2 & _ & Hrs2 & ->).
  apply Forall2_cons_inv_l in Hrs2 as (fl' & rs2' & Hfl' & Hafter & ->).
  assert (fl' = fl) as -> by congruence.
  rewrite list.filter_app, filter_cons_True, fmap_app, fmap_cons
    by (by apply Is_true_true_2, truthy_dict_nonempty).
  rewrite <- (flips_for_version_revision _ _ Hfl). apply dict_comp_lookup_last.
  intros m (r & [= Hrev ->] & [_ Hr]%list_elem_of_filter)%list_elem_of_fmap.
  apply list_elem_of_lookup in Hr as [j Hj].
  destruct (Forall2_lookup_r _ _ _ _ _ Hafter Hj) as (later & Hlj & Hlfl).
  apply (Hlater later); [by eapply list_elem_of_lookup_2|].
  rewrite <- (flips_for_version_revision _ _ Hlfl), <- Hrev.
  by rewrite (flips_for_version_revision _ _ Hfl).
Qed.

Lemma find_reports_flipped_version_witness :
  ({[ "abc123" := {[ "linux" := ["A"] ]} ]} : gmap string (gmap string (list string)))
    !! Version.revision (WorkItem.version (scenario_work_item "!linux" "linux" 10))
  = Some (FlipList.flipped_tasks (FlipList.mk "abc123" {[ "linux" := ["A"] ]})).
Proof.
  apply (find_reports_flipped_version 5 (scenario "!linux" "linux" 10) [] []
           (scenario_work_item "!linux" "linux" 10)
           (FlipList.mk "abc123" {[ "linux" := ["A"] ]})
           {[ "abc123" := {[ "linux" := ["A"] ]} ]}).
  - vm_compute. reflexivity.
  - intros later Hlater. by apply elem_of_nil in Hlater.
  - vm_compute. reflexivity.
  - apply (bool_decide_unpack _). vm_compute. exact I.
  - vm_compute. reflexivity.
Defined.

(** On a history none of whose builds is kept by [_filter_builds], [find]
    returns the empty dictionary for every [look_back]: it neither reports
    anything nor fails, whatever builds the versions have or lack. *)
Theorem find_nothing_kept (look_back : Z) (versions : list Version.t) :
  (∀ version build, version ∈ versions → build ∈ Version.get_builds version →
                    _filter_builds build = false) →
  find look_back versions = Some ∅.
Proof.
  intros Hnone. unfold find.
  assert (∀ work_item, work_item ∈ schedule look_back (windowed_iter versions) →
            _flips_for_version work_item
            = Some (FlipList.mk (Version.revision (WorkItem.version work_item)) ∅))
    as Hjobs.
  { intros work_item (_ & i & _ & Hv & _)%schedule_elem_of_window.
    apply flips_for_version_nothing_kept. intros build.
    apply Hnone. by eapply list_elem_of_lookup_2. }
  assert (∃ results,
            mapM _flips_for_version (schedule look_back (windowed_iter versions))
            = Some results
            ∧ filter (λ r, Is_true (truthy (FlipList.flipped_tasks r))) results = [])
    as (results & -> & Hempty).
  { induction (schedule look_back (windowed_iter versions)) as [|job jobs IH].
    - by exists [].
    - destruct IH as (results & Hresults & Hempty).
      { intros work_item Hin. apply Hjobs. by right. }
      eexists. simpl. rewrite (Hjobs job) by left. simpl. rewrite Hresults. simpl.
      split; [reflexivity|]. rewrite filter_cons_False; [done|].
      simpl. by apply Is_true_false_2. }
  simpl. by rewrite Hempty.
Qed.

Lemma find_nothing_kept_witness :
  find 0 (scenario_missing_prev "linux" "linux" 10) = Some ∅.
Proof.
  apply find_nothing_kept. intros version build Hversion Hbuild.
  repeat (apply elem_of_cons in Hversion as [->|Hversion]);
    simpl in Hbuild;
    try (apply list_elem_of_singleton in Hbuild; subst build; reflexivity);
    by apply elem_of_nil in Hbuild || by apply elem_of_nil in Hversion.
Defined.
